(** * The (7,4) Hamming codec of [HW/第九周習題/5.py]

    A shallow embedding of the Python script and the properties of its
    encoder, decoder and textual bit serialisation.

    Conventions of the embedding:
    - a Python [int] is a [Z]; [^] is [Z.lxor] (both work on the infinite
      two's complement representation) and is left associative;
    - a Python [list] of ints is a [list Z]; indexing goes through
      [py_getitem] / [py_setitem], which implement negative indices and
      raise [IndexError] out of range, and already for an index that does
      not fit the index type of CPython on a 64-bit platform;
    - a Python [str] is a [string]; characters are restricted to the code
      points below 256, and the literals of the script are kept as their
      UTF-8 bytes;
    - a raised exception is the [Raise] result of [res]; code that prints
      threads the lines written to standard output ([io]). *)

From Stdlib Require Import ZArith String Ascii List DecimalString DecimalZ Lia.
From stdpp Require Import base list.
Import ListNotations.

Open Scope Z_scope.

(** ** Exceptions, results and output *)

Inductive exn : Type :=
| ValueError (msg : string)
| IndexError (msg : string)
| AssertionError.

Inductive res (A : Type) : Type :=
| Ok (a : A)
| Raise (e : exn).

Arguments Ok {A} a.
Arguments Raise {A} e.

Definition res_bind {A B : Type} (m : res A) (k : A -> res B) : res B :=
  match m with
  | Ok a => k a
  | Raise e => Raise e
  end.

(** Standard output is the list of lines printed so far, oldest first. *)
Definition stdout : Type := list string.

Definition io (A : Type) : Type := stdout -> res A * stdout.

Definition io_ret {A : Type} (a : A) : io A := fun out => (Ok a, out).

Definition io_bind {A B : Type} (m : io A) (k : A -> io B) : io B :=
  fun out =>
    match m out with
    | (Ok a, out') => k a out'
    | (Raise e, out') => (Raise e, out')
    end.

Definition lift {A : Type} (r : res A) : io A := fun out => (r, out).

Definition print (line : string) : io unit :=
  fun out => (Ok tt, out ++ [line]).

Definition result {A : Type} (m : io A) : res A := fst (m []).

Definition printed {A : Type} (m : io A) : stdout := snd (m []).

Declare Scope io_scope.
Delimit Scope io_scope with io.

Notation "x <- m ;; k" := (io_bind m (fun x => k))
  (at level 100, m at next level, right associativity) : io_scope.
Notation "m ;;; k" := (io_bind m (fun _ => k))
  (at level 100, right associativity) : io_scope.

(** ** The Python primitives the script uses *)

Definition py_len {A : Type} (l : list A) : Z := Z.of_nat (length l).

(** The decimal text of an int: decimal digits, with a leading minus
    sign. This is what [str(n)] returns when it returns. *)
Definition py_str (n : Z) : string := NilZero.string_of_int (Z.to_int n).

(** The number of decimal digits of an int, the sign apart. *)
Definition int_digits (n : Z) : Z :=
  Z.of_nat (String.length (py_str (Z.abs n))).

(** CPython refuses to convert an int of more than 4300 decimal digits
    to text (the default of [sys.get_int_max_str_digits()]) and raises a
    ValueError, whose wording varies slightly between versions. *)
Definition int_max_str_digits : Z := 4300.

Definition msg_str_digits : string :=
  "Exceeds the limit (4300 digits) for integer string conversion; use sys.set_int_max_str_digits() to increase the limit".

(** An int interpolated in an f-string, [f"{n}"]: the conversion to text
    with its limit on the number of digits. *)
Definition py_format_int (n : Z) : res string :=
  if int_max_str_digits <? int_digits n then Raise (ValueError msg_str_digits)
  else Ok (py_str n).

(** The largest index CPython can hold on a 64-bit platform
    ([sys.maxsize], 2^63 - 1); a subscript outside of
    [- ssize_max - 1 .. ssize_max] is refused before the list is looked
    at. *)
Definition ssize_max : Z := 9223372036854775807.

Definition fits_index (i : Z) : bool :=
  (- ssize_max - 1 <=? i) && (i <=? ssize_max).

Definition msg_index_size : string :=
  "cannot fit 'int' into an index-sized integer".

(** Index normalisation of list subscripts: a negative index counts from
    the end; [None] when the index falls outside the list. *)
Definition py_index {A : Type} (l : list A) (i : Z) : option nat :=
  let j := if i <? 0 then i + py_len l else i in
  if (0 <=? j) && (j <? py_len l) then Some (Z.to_nat j) else None.

Definition py_getitem (l : list Z) (i : Z) : res Z :=
  if negb (fits_index i) then Raise (IndexError msg_index_size)
  else
    match py_index l i with
    | Some n =>
        match l !! n with
        | Some x => Ok x
        | None => Raise (IndexError "list index out of range")
        end
    | None => Raise (IndexError "list index out of range")
    end.

Definition py_setitem (l : list Z) (i : Z) (v : Z) : res (list Z) :=
  if negb (fits_index i) then Raise (IndexError msg_index_size)
  else
    match py_index l i with
    | Some n => Ok (<[n := v]> l)
    | None => Raise (IndexError "list assignment index out of range")
    end.

(** [int(c)] for a one-character string [c]: below code point 256 only
    the ASCII digits are decimal digits; anything else is a ValueError
    (whose text, which goes on with the offending literal, is cut short). *)
Definition py_int_of_char (c : ascii) : res Z :=
  let n := Z.of_nat (nat_of_ascii c) in
  if (48 <=? n) && (n <=? 57) then Ok (n - 48)
  else Raise (ValueError "invalid literal for int() with base 10").

(** ** Helper functions: [bits_to_str] and [str_to_bits] *)

(** [bits_to_str]: the join, with the empty separator, of [map(str, bits)]. *)
Definition bits_to_str (bits : list Z) : string :=
  String.concat EmptyString (map py_str bits).

(** [return [int(b) for b in s]] *)
Fixpoint str_to_bits (s : string) : res (list Z) :=
  match s with
  | EmptyString => Ok []
  | String b s' =>
      res_bind (py_int_of_char b) (fun x =>
      res_bind (str_to_bits s') (fun xs => Ok (x :: xs)))
  end.

(** ** The encoder *)

Definition msg_encode_length : string := "資料必須是 4 位元。".
Definition msg_decode_length : string := "碼字必須是 7 位元。".

(** [d1, d2, d3, d4 = data_bits]; the unpacking raises a ValueError of
    its own on any other number of elements (its text is cut short). *)
Definition unpack4 (l : list Z) : res (Z * Z * Z * Z) :=
  match l with
  | [d1; d2; d3; d4] => Ok (d1, d2, d3, d4)
  | _ :: _ :: _ :: _ :: _ :: _ =>
      Raise (ValueError "too many values to unpack (expected 4)")
  | _ => Raise (ValueError "not enough values to unpack")
  end.

Definition hamming_encode (data_bits : list Z) : res (list Z) :=
  if negb (py_len data_bits =? 4) then
    Raise (ValueError msg_encode_length)
  else
    res_bind (unpack4 data_bits) (fun '(d1, d2, d3, d4) =>
    let p1 := Z.lxor (Z.lxor d1 d2) d4 in
    let p2 := Z.lxor (Z.lxor d1 d3) d4 in
    let p3 := Z.lxor (Z.lxor d2 d3) d4 in
    let codeword := [p1; p2; d1; p3; d2; d3; d4] in
    Ok codeword).

(** ** The decoder *)

Definition hamming_decode (codeword : list Z) : io (list Z * Z) :=
  (if negb (py_len codeword =? 7) then
     lift (Raise (ValueError msg_decode_length))
   else
     p1_rec <- lift (py_getitem codeword 0) ;;
     p2_rec <- lift (py_getitem codeword 1) ;;
     d1_rec <- lift (py_getitem codeword 2) ;;
     p3_rec <- lift (py_getitem codeword 3) ;;
     d2_rec <- lift (py_getitem codeword 4) ;;
     d3_rec <- lift (py_getitem codeword 5) ;;
     d4_rec <- lift (py_getitem codeword 6) ;;
     let s1 := Z.lxor (Z.lxor (Z.lxor p1_rec d1_rec) d2_rec) d4_rec in
     let s2 := Z.lxor (Z.lxor (Z.lxor p2_rec d1_rec) d3_rec) d4_rec in
     let s3 := Z.lxor (Z.lxor (Z.lxor p3_rec d2_rec) d3_rec) d4_rec in
     let error_pos := (s3 * 4) + (s2 * 2) + (s1 * 1) in
     let corrected_codeword := codeword in
     corrected_codeword <-
       (if error_pos >? 0 then
          shown <- lift (py_format_int error_pos) ;;
          print ("    [偵測] 錯誤發生在位置 " ++ shown)%string ;;;
          let error_index := error_pos - 1 in
          old <- lift (py_getitem corrected_codeword error_index) ;;
          corrected_codeword <-
            lift (py_setitem corrected_codeword error_index (1 - old)) ;;
          shown <- lift (py_format_int error_pos) ;;
          print ("    [修正] 已將位置 " ++ shown ++ " 的位元反轉。")%string ;;;
          io_ret corrected_codeword
        else
          print "    [偵測] 未偵測到錯誤。" ;;;
          io_ret corrected_codeword) ;;
     c2 <- lift (py_getitem corrected_codeword 2) ;;
     c4 <- lift (py_getitem corrected_codeword 4) ;;
     c5 <- lift (py_getitem corrected_codeword 5) ;;
     c6 <- lift (py_getitem corrected_codeword 6) ;;
     let corrected_data := [c2; c4; c5; c6] in
     io_ret (corrected_data, error_pos))%io.

(** ** The example run at the end of the script *)

(** [s * n] for a string [s]. *)
Fixpoint py_str_repeat (s : string) (n : nat) : string :=
  match n with
  | O => EmptyString
  | S k => (s ++ py_str_repeat s k)%string
  end.

(** The error injection of the second scenario, for any simulated
    position:
    [received_word_err = list(encoded_word)],
    [error_sim_idx = error_sim_pos - 1],
    [received_word_err[error_sim_idx] = 1 - received_word_err[error_sim_idx]]. *)
Definition simulate_error (encoded_word : list Z) (error_sim_pos : Z)
  : res (list Z) :=
  let received_word_err := encoded_word in
  let error_sim_idx := error_sim_pos - 1 in
  res_bind (py_getitem received_word_err error_sim_idx) (fun old =>
  py_setitem received_word_err error_sim_idx (1 - old)).

Definition py_assert (b : bool) : io unit :=
  if b then io_ret tt else lift (Raise AssertionError).

Definition main : io unit :=
  (original_data <- lift (str_to_bits "1011") ;;
   print ("原始資料 (D1,D2,D3,D4): " ++ bits_to_str original_data)%string ;;;
   print (py_str_repeat "-" 30) ;;;
   encoded_word <- lift (hamming_encode original_data) ;;
   print ("編碼後的漢明碼 (7位): " ++ bits_to_str encoded_word)%string ;;;
   print (py_str_repeat "-" 30) ;;;
   print "情境 1: 模擬無錯誤傳輸" ;;;
   let received_word_ok := encoded_word in
   print ("  接收到的碼字: " ++ bits_to_str received_word_ok)%string ;;;
   r_ok <- hamming_decode received_word_ok ;;
   let '(decoded_data_ok, err_pos_ok) := r_ok in
   print ("  解碼後的資料: " ++ bits_to_str decoded_data_ok)%string ;;;
   py_assert (bool_decide (original_data = decoded_data_ok)) ;;;
   print "  結果: 資料正確！" ;;;
   print (py_str_repeat "-" 30) ;;;
   print "情境 2: 模擬 1 位元錯誤" ;;;
   let error_sim_pos := 5 in
   received_word_err <- lift (simulate_error encoded_word error_sim_pos) ;;
   print ("  原始碼字: " ++ bits_to_str encoded_word)%string ;;;
   shown <- lift (py_format_int error_sim_pos) ;;
   print ("  (模擬錯誤，將位置 " ++ shown ++ " 反轉)")%string ;;;
   print ("  接收到的碼字: " ++ bits_to_str received_word_err)%string ;;;
   r_err <- hamming_decode received_word_err ;;
   let '(decoded_data_err, err_pos_detected) := r_err in
   print ("  解碼並修正後的資料: " ++ bits_to_str decoded_data_err)%string ;;;
   py_assert (err_pos_detected =? error_sim_pos) ;;;
   py_assert (bool_decide (original_data = decoded_data_err)) ;;;
   print "  結果: 錯誤被成功偵測並修正，資料恢復！" ;;;
   print (py_str_repeat "-" 30))%io.

(** ** Vocabulary of the specification *)

(** A bit is a value in {0, 1}. *)
Definition is_bit (b : Z) : Prop := b = 0 \/ b = 1.

(** A word of [n] bits: exactly [n] elements, each of them a bit. *)
Definition is_word (n : nat) (w : list Z) : Prop :=
  length w = n /\ Forall is_bit w.

(** All words of [n] bits. *)
Fixpoint all_words (n : nat) : list (list Z) :=
  match n with
  | O => [[]]
  | S k => flat_map (fun w => [0 :: w; 1 :: w]) (all_words k)
  end.

(** The bit at a 1-based position of a word (0 outside of it). *)
Definition bit_at (w : list Z) (pos : nat) : Z := nth (pos - 1) w 0.

(** The word with the bit at the 1-based position [pos] replaced by
    [1 - bit], every other position unchanged. *)
Definition flip_at (pos : Z) (w : list Z) : list Z :=
  imap (fun i b => if Z.of_nat i + 1 =? pos then 1 - b else b) w.

(** The decoder as the specification words it, on a received word
    [(p1, p2, d1, p3, d2, d3, d4)]. *)
Definition spec_syndrome (p1 p2 d1 p3 d2 d3 d4 : Z) : Z * Z * Z :=
  (Z.lxor p1 (Z.lxor d1 (Z.lxor d2 d4)),
   Z.lxor p2 (Z.lxor d1 (Z.lxor d3 d4)),
   Z.lxor p3 (Z.lxor d2 (Z.lxor d3 d4))).

Definition spec_error_position (s : Z * Z * Z) : Z :=
  let '(s1, s2, s3) := s in s3 * 4 + s2 * 2 + s1 * 1.

Definition spec_decode (p1 p2 d1 p3 d2 d3 d4 : Z) : list Z * Z :=
  let received := [p1; p2; d1; p3; d2; d3; d4] in
  let pos := spec_error_position (spec_syndrome p1 p2 d1 p3 d2 d3 d4) in
  let corrected := if 0 <? pos then flip_at pos received else received in
  ([bit_at corrected 3; bit_at corrected 5;
    bit_at corrected 6; bit_at corrected 7], pos).

(** Whether [needle] occurs in [hay] as a contiguous substring. *)
Fixpoint mentions (needle hay : string) : bool :=
  String.prefix needle hay ||
  match hay with
  | EmptyString => false
  | String _ rest => mentions needle rest
  end.

(** The characters of a serialised bit sequence. *)
Definition is_bit_char (c : ascii) : Prop := c = "0"%char \/ c = "1"%char.

(** The reading of "the diagnostic identifies expected and actual length":
    the exception is the length error and its text shows both numbers. *)
Definition identifies_lengths (expected actual : Z) (e : exn) : bool :=
  match e with
  | ValueError msg => mentions (py_str expected) msg && mentions (py_str actual) msg
  | _ => false
  end.

(** Whether every character of [s] is a decimal digit. *)
Fixpoint all_digits (s : string) : bool :=
  match s with
  | EmptyString => true
  | String c rest =>
      let n := Z.of_nat (nat_of_ascii c) in
      (48 <=? n) && (n <=? 57) && all_digits rest
  end.

(** The number of positions at which two words differ. *)
Definition hamming_distance (u v : list Z) : nat :=
  length (List.filter (fun ab => negb (fst ab =? snd ab)) (combine u v)).

(** The position by position exclusive or of two words. *)
Definition xor_words (u v : list Z) : list Z := zip_with Z.lxor u v.

(** The value of a decimal digit character. *)
Definition digit_value (c : ascii) : Z := Z.of_nat (nat_of_ascii c) - 48.

(** A value that [str] writes as one decimal digit. *)
Definition is_digit (b : Z) : Prop := 0 <= b <= 9.

(** ** Proof automation for explicit words *)

(** Proves that every element of an explicit list is 0 or 1. *)
Ltac bits_literal :=
  match goal with
  | |- Forall ?P ?l => let l' := eval vm_compute in l in change (Forall P l')
  end;
  repeat match goal with
         | |- Forall _ (_ :: _) => constructor
         | |- Forall _ [] => constructor
         | |- is_bit _ => first [ left; reflexivity | right; reflexivity ]
         end.

(** Proves that an explicit list of 0s and 1s is a word. *)
Ltac word_literal := split; [ reflexivity | bits_literal ].

(** Replaces every bit hypothesis by its two values. *)
Ltac split_bits :=
  repeat match goal with
         | H : is_bit _ |- _ => destruct H as [-> | ->]
         end.

(** Proves an equation between exclusive ors bit by bit. *)
Ltac xor_bits :=
  apply Z.bits_inj'; intros ? ?;
  rewrite ?Z.lxor_spec, ?Z.bits_0;
  repeat match goal with
         | |- context [Z.testbit ?x ?n] => destruct (Z.testbit x n)
         end;
  reflexivity.

(** ** Concrete runs *)

Example encode_1011 : hamming_encode [1; 0; 1; 1] = Ok [0; 1; 1; 0; 0; 1; 1].
Proof. reflexivity. Qed.

Example decode_1011 :
  hamming_decode [0; 1; 1; 0; 1; 1; 1] [] =
  (Ok ([1; 0; 1; 1], 5),
   ["    [偵測] 錯誤發生在位置 5"; "    [修正] 已將位置 5 的位元反轉。"]%string).
Proof. reflexivity. Qed.

Example main_runs : result main = Ok tt.
Proof. vm_compute. reflexivity. Qed.

Example main_prints_codeword :
  nth_error (printed main) 2 = Some "編碼後的漢明碼 (7位): 0110011"%string.
Proof. vm_compute. reflexivity. Qed.

(** ** Laws of the primitives *)

Lemma py_getitem_out (l : list Z) (i : Z) :
  py_len l <= i -> i <= ssize_max ->
  py_getitem l i = Raise (IndexError "list index out of range").
Proof.
  intros Hi Hmax. unfold py_getitem, fits_index, py_index.
  assert (Hlen : 0 <= py_len l) by (unfold py_len; lia).
  rewrite (proj2 (Z.leb_le _ _)) by (unfold ssize_max; lia).
  rewrite (proj2 (Z.leb_le _ _)) by exact Hmax.
  cbn [andb negb].
  destruct (i <? 0) eqn:Hneg; [apply Z.ltb_lt in Hneg; lia|].
  replace (i <? py_len l) with false by (symmetry; apply Z.ltb_ge; lia).
  rewrite andb_false_r. reflexivity.
Qed.

Lemma py_getitem_overflow (l : list Z) (i : Z) :
  ssize_max < i -> py_getitem l i = Raise (IndexError msg_index_size).
Proof.
  intros Hi. unfold py_getitem, fits_index.
  rewrite (proj2 (Z.leb_gt i ssize_max)) by exact Hi.
  rewrite andb_false_r. reflexivity.
Qed.

Lemma spec_position_code (p1 p2 d1 p3 d2 d3 d4 : Z) :
  spec_error_position (spec_syndrome p1 p2 d1 p3 d2 d3 d4) =
  (Z.lxor (Z.lxor (Z.lxor p3 d2) d3) d4) * 4
  + (Z.lxor (Z.lxor (Z.lxor p2 d1) d3) d4) * 2
  + (Z.lxor (Z.lxor (Z.lxor p1 d1) d2) d4) * 1.
Proof.
  unfold spec_error_position, spec_syndrome.
  rewrite !Z.lxor_assoc. reflexivity.
Qed.

(** The complete run of the decoder on seven integers: what it returns
    or raises, and the lines it prints. *)
Lemma hamming_decode_run (c1 c2 c3 c4 c5 c6 c7 : Z) :
  let pos := Z.lxor (Z.lxor (Z.lxor c4 c5) c6) c7 * 4
             + Z.lxor (Z.lxor (Z.lxor c2 c3) c6) c7 * 2
             + Z.lxor (Z.lxor (Z.lxor c1 c3) c5) c7 * 1 in
  let received := [c1; c2; c3; c4; c5; c6; c7] in
  hamming_decode received [] =
  if pos <=? 0 then
    (Ok ([c3; c5; c6; c7], pos), ["    [偵測] 未偵測到錯誤。"%string])
  else if pos <=? 7 then
    (Ok ([bit_at (flip_at pos received) 3; bit_at (flip_at pos received) 5;
          bit_at (flip_at pos received) 6; bit_at (flip_at pos received) 7],
         pos),
     [("    [偵測] 錯誤發生在位置 " ++ py_str pos)%string;
      ("    [修正] 已將位置 " ++ py_str pos ++ " 的位元反轉。")%string])
  else if int_max_str_digits <? int_digits pos then
    (Raise (ValueError msg_str_digits), [])
  else if ssize_max <? pos - 1 then
    (Raise (IndexError msg_index_size),
     [("    [偵測] 錯誤發生在位置 " ++ py_str pos)%string])
  else
    (Raise (IndexError "list index out of range"),
     [("    [偵測] 錯誤發生在位置 " ++ py_str pos)%string]).
Proof.
  cbv zeta. unfold hamming_decode.
  change (negb (py_len [c1; c2; c3; c4; c5; c6; c7] =? 7)) with false.
  change (py_getitem [c1; c2; c3; c4; c5; c6; c7] 0) with (Ok c1).
  change (py_getitem [c1; c2; c3; c4; c5; c6; c7] 1) with (Ok c2).
  change (py_getitem [c1; c2; c3; c4; c5; c6; c7] 2) with (Ok c3).
  change (py_getitem [c1; c2; c3; c4; c5; c6; c7] 3) with (Ok c4).
  change (py_getitem [c1; c2; c3; c4; c5; c6; c7] 4) with (Ok c5).
  change (py_getitem [c1; c2; c3; c4; c5; c6; c7] 5) with (Ok c6).
  change (py_getitem [c1; c2; c3; c4; c5; c6; c7] 6) with (Ok c7).
  cbv beta iota zeta delta [io_bind lift io_ret print].
  remember (Z.lxor (Z.lxor (Z.lxor c4 c5) c6) c7 * 4
            + Z.lxor (Z.lxor (Z.lxor c2 c3) c6) c7 * 2
            + Z.lxor (Z.lxor (Z.lxor c1 c3) c5) c7 * 1) as pos eqn:Hpos.
  clear Hpos.
  assert (Hcases : pos <= 0 \/ pos = 1 \/ pos = 2 \/ pos = 3 \/ pos = 4 \/
                   pos = 5 \/ pos = 6 \/ pos = 7 \/ 7 < pos) by lia.
  rewrite Z.gtb_ltb.
  destruct Hcases as [Hle | Hcases].
  { rewrite (proj2 (Z.ltb_ge 0 pos)), (proj2 (Z.leb_le pos 0)) by lia.
    reflexivity. }
  repeat (destruct Hcases as [-> | Hcases]; [reflexivity|]).
  rewrite (proj2 (Z.ltb_lt 0 pos)), (proj2 (Z.leb_gt pos 0)),
    (proj2 (Z.leb_gt pos 7)) by lia.
  unfold py_format_int.
  destruct (int_max_str_digits <? int_digits pos); [reflexivity|].
  destruct (Z.ltb_spec ssize_max (pos - 1)) as [Hbig | Hfit].
  - rewrite (py_getitem_overflow _ _ Hbig). reflexivity.
  - rewrite py_getitem_out by (unfold py_len; simpl; lia). reflexivity.
Qed.

(** Up to position 7 the decoder returns what the specification words. *)
Lemma hamming_decode_any (c1 c2 c3 c4 c5 c6 c7 : Z) :
  snd (spec_decode c1 c2 c3 c4 c5 c6 c7) <= 7 ->
  result (hamming_decode [c1; c2; c3; c4; c5; c6; c7]) =
  Ok (spec_decode c1 c2 c3 c4 c5 c6 c7).
Proof.
  unfold spec_decode. cbv zeta. rewrite spec_position_code.
  cbn [snd]. intros Hle.
  unfold result. rewrite hamming_decode_run.
  destruct (Z.leb_spec
              (Z.lxor (Z.lxor (Z.lxor c4 c5) c6) c7 * 4
               + Z.lxor (Z.lxor (Z.lxor c2 c3) c6) c7 * 2
               + Z.lxor (Z.lxor (Z.lxor c1 c3) c5) c7 * 1) 0) as [H0 | H0].
  - rewrite (proj2 (Z.ltb_ge 0 _)) by exact H0. reflexivity.
  - rewrite (proj2 (Z.ltb_lt 0 _)) by exact H0.
    rewrite (proj2 (Z.leb_le _ 7)) by exact Hle. reflexivity.
Qed.

(** ** Words of bits *)

Lemma is_word_4_inv (d : list Z) :
  is_word 4 d ->
  exists d1 d2 d3 d4,
    d = [d1; d2; d3; d4] /\ is_bit d1 /\ is_bit d2 /\ is_bit d3 /\ is_bit d4.
Proof.
  intros [Hlen Hbits].
  destruct d as [|d1 [|d2 [|d3 [|d4 [|d5 d]]]]]; try discriminate Hlen.
  exists d1, d2, d3, d4.
  repeat match goal with
         | H : Forall _ (_ :: _) |- _ => apply Forall_cons_iff in H as [? H]
         end.
  auto.
Qed.

Lemma is_word_7_inv (w : list Z) :
  is_word 7 w ->
  exists c1 c2 c3 c4 c5 c6 c7,
    w = [c1; c2; c3; c4; c5; c6; c7] /\
    is_bit c1 /\ is_bit c2 /\ is_bit c3 /\ is_bit c4 /\
    is_bit c5 /\ is_bit c6 /\ is_bit c7.
Proof.
  intros [Hlen Hbits].
  destruct w as [|c1 [|c2 [|c3 [|c4 [|c5 [|c6 [|c7 [|c8 w]]]]]]]];
    try discriminate Hlen.
  exists c1, c2, c3, c4, c5, c6, c7.
  repeat match goal with
         | H : Forall _ (_ :: _) |- _ => apply Forall_cons_iff in H as [? H]
         end.
  repeat split; assumption.
Qed.

Lemma all_words_spec (n : nat) (w : list Z) :
  In w (all_words n) <-> is_word n w.
Proof.
  revert w. induction n as [|n IH]; intros w; simpl.
  - split.
    + intros [<- | []]. split; [reflexivity | constructor].
    + intros [Hlen _]. left. destruct w; [reflexivity | discriminate].
  - rewrite in_flat_map. split.
    + intros (v & Hv & Hw). apply IH in Hv as [Hlen Hbits].
      destruct Hw as [<- | [<- | []]];
        (split; [simpl; congruence | constructor; [|assumption]]).
      * left; reflexivity.
      * right; reflexivity.
    + intros [Hlen Hbits]. destruct w as [|b v]; [discriminate|].
      apply Forall_cons_iff in Hbits as [Hb Hbits].
      exists v. split.
      * apply IH. split; [simpl in Hlen; congruence | assumption].
      * destruct Hb as [-> | ->]; simpl; auto.
Qed.

Example sixteen_data_words : length (all_words 4) = 16%nat.
Proof. reflexivity. Qed.

Example all_codewords_received : length (all_words 7) = 128%nat.
Proof. reflexivity. Qed.

(** ** The encoder *)

Lemma hamming_encode_four (d1 d2 d3 d4 : Z) :
  hamming_encode [d1; d2; d3; d4] =
  Ok [Z.lxor (Z.lxor d1 d2) d4; Z.lxor (Z.lxor d1 d3) d4; d1;
      Z.lxor (Z.lxor d2 d3) d4; d2; d3; d4].
Proof. reflexivity. Qed.

(** C4. For every input [(d1, d2, d3, d4)], [hamming_encode] returns the
    seven elements [(p1, p2, d1, p3, d2, d3, d4)] in this order, where
    [p1 = d1 xor d2 xor d4], [p2 = d1 xor d3 xor d4] and
    [p3 = d2 xor d3 xor d4]; each parity bit is even: its exclusive or with
    the bits it covers is 0. *)
Theorem hamming_encode_layout (d1 d2 d3 d4 : Z) :
  let p1 := Z.lxor d1 (Z.lxor d2 d4) in
  let p2 := Z.lxor d1 (Z.lxor d3 d4) in
  let p3 := Z.lxor d2 (Z.lxor d3 d4) in
  hamming_encode [d1; d2; d3; d4] = Ok [p1; p2; d1; p3; d2; d3; d4]
  /\ Z.lxor p1 (Z.lxor d1 (Z.lxor d2 d4)) = 0
  /\ Z.lxor p2 (Z.lxor d1 (Z.lxor d3 d4)) = 0
  /\ Z.lxor p3 (Z.lxor d2 (Z.lxor d3 d4)) = 0.
Proof.
  intros p1 p2 p3. subst p1 p2 p3.
  rewrite !Z.lxor_nilpotent.
  repeat split.
  rewrite hamming_encode_four, !Z.lxor_assoc. reflexivity.
Qed.

Lemma hamming_encode_bits (d : list Z) :
  is_word 4 d -> exists cw, hamming_encode d = Ok cw /\ is_word 7 cw.
Proof.
  intros Hd.
  destruct (is_word_4_inv d Hd) as (d1 & d2 & d3 & d4 & -> & B1 & B2 & B3 & B4).
  split_bits; (eexists; split; [cbv; reflexivity | word_literal]).
Qed.

(** ** The decoder *)

Lemma decode_position_range (c1 c2 c3 c4 c5 c6 c7 : Z) :
  is_word 7 [c1; c2; c3; c4; c5; c6; c7] ->
  0 <= snd (spec_decode c1 c2 c3 c4 c5 c6 c7) <= 7.
Proof.
  intros Hw.
  destruct (is_word_7_inv _ Hw)
    as (x1 & x2 & x3 & x4 & x5 & x6 & x7 & E & B1 & B2 & B3 & B4 & B5 & B6 & B7).
  injection E as -> -> -> -> -> -> ->.
  split_bits; vm_compute; split; discriminate.
Qed.

Lemma decode_data_bits (c1 c2 c3 c4 c5 c6 c7 : Z) :
  is_word 7 [c1; c2; c3; c4; c5; c6; c7] ->
  is_word 4 (fst (spec_decode c1 c2 c3 c4 c5 c6 c7)).
Proof.
  intros Hw.
  destruct (is_word_7_inv _ Hw)
    as (x1 & x2 & x3 & x4 & x5 & x6 & x7 & E & B1 & B2 & B3 & B4 & B5 & B6 & B7).
  injection E as -> -> -> -> -> -> ->.
  split_bits; word_literal.
Qed.

(** C3. On every received word [(p1, p2, d1, p3, d2, d3, d4)] of seven
    bits, [hamming_decode] returns the error position
    [s3 * 4 + s2 * 2 + s1 * 1] for the syndrome
    [s1 = p1 xor d1 xor d2 xor d4], [s2 = p2 xor d1 xor d3 xor d4],
    [s3 = p3 xor d2 xor d3 xor d4], and as data the bits at the 1-based
    positions 3, 5, 6, 7 of the received word in which the bit at the error
    position has been replaced by [1 - bit] exactly when that position is
    greater than 0. *)
Theorem hamming_decode_syndrome (p1 p2 d1 p3 d2 d3 d4 : Z) :
  is_word 7 [p1; p2; d1; p3; d2; d3; d4] ->
  let s1 := Z.lxor p1 (Z.lxor d1 (Z.lxor d2 d4)) in
  let s2 := Z.lxor p2 (Z.lxor d1 (Z.lxor d3 d4)) in
  let s3 := Z.lxor p3 (Z.lxor d2 (Z.lxor d3 d4)) in
  let pos := s3 * 4 + s2 * 2 + s1 * 1 in
  let received := [p1; p2; d1; p3; d2; d3; d4] in
  let corrected := if 0 <? pos then flip_at pos received else received in
  result (hamming_decode received) =
  Ok ([bit_at corrected 3; bit_at corrected 5;
       bit_at corrected 6; bit_at corrected 7], pos).
Proof.
  intros Hw s1 s2 s3 pos received corrected.
  subst corrected received pos s3 s2 s1.
  change (result (hamming_decode [p1; p2; d1; p3; d2; d3; d4]) =
          Ok (spec_decode p1 p2 d1 p3 d2 d3 d4)).
  apply hamming_decode_any.
  apply (decode_position_range _ _ _ _ _ _ _ Hw).
Qed.

Lemma hamming_decode_syndrome_witness :
  is_word 7 [0; 1; 1; 0; 1; 1; 1] /\
  result (hamming_decode [0; 1; 1; 0; 1; 1; 1]) = Ok ([1; 0; 1; 1], 5).
Proof.
  split; [word_literal|].
  apply (hamming_decode_syndrome 0 1 1 0 1 1 1). word_literal.
Defined.

(** C2. For every data word [d] of four bits, decoding the code word
    that [hamming_encode] returns for [d] gives back [d] and the error
    position 0. *)
Theorem decode_encode_roundtrip (d : list Z) :
  is_word 4 d ->
  exists cw,
    hamming_encode d = Ok cw /\ result (hamming_decode cw) = Ok (d, 0).
Proof.
  intros Hd.
  destruct (is_word_4_inv d Hd) as (d1 & d2 & d3 & d4 & -> & B1 & B2 & B3 & B4).
  split_bits; (eexists; split; [cbv; reflexivity | reflexivity]).
Qed.

Lemma decode_encode_roundtrip_witness :
  is_word 4 [1; 0; 1; 1] /\
  exists cw,
    hamming_encode [1; 0; 1; 1] = Ok cw /\
    result (hamming_decode cw) = Ok ([1; 0; 1; 1], 0).
Proof.
  split; [word_literal|].
  apply (decode_encode_roundtrip [1; 0; 1; 1]). word_literal.
Defined.

(** C1. For every data word [d] of four bits and every position [p] from
    1 to 7, replacing the bit at position [p] of the code word of [d] by
    [1 - bit] and decoding the result gives back [d] and reports [p]. *)
Theorem single_error_correction (d : list Z) (p : Z) :
  is_word 4 d ->
  1 <= p <= 7 ->
  exists cw received,
    hamming_encode d = Ok cw /\
    simulate_error cw p = Ok received /\
    received = flip_at p cw /\
    result (hamming_decode received) = Ok (d, p).
Proof.
  intros Hd Hp.
  destruct (is_word_4_inv d Hd) as (d1 & d2 & d3 & d4 & -> & B1 & B2 & B3 & B4).
  assert (Hcases : p = 1 \/ p = 2 \/ p = 3 \/ p = 4 \/ p = 5 \/ p = 6 \/ p = 7)
    by lia.
  clear Hp Hd.
  repeat destruct Hcases as [-> | Hcases]; try subst p;
    split_bits;
    (do 2 eexists;
     split; [cbv; reflexivity|];
     split; [cbv; reflexivity|];
     split; reflexivity).
Qed.

Lemma single_error_correction_witness :
  is_word 4 [1; 0; 1; 1] /\ 1 <= 5 <= 7 /\
  exists cw received,
    hamming_encode [1; 0; 1; 1] = Ok cw /\
    simulate_error cw 5 = Ok received /\
    received = flip_at 5 cw /\
    result (hamming_decode received) = Ok ([1; 0; 1; 1], 5).
Proof.
  assert (Hw : is_word 4 [1; 0; 1; 1]) by word_literal.
  assert (Hp : 1 <= 5 <= 7) by (split; discriminate).
  exact (conj Hw (conj Hp (single_error_correction [1; 0; 1; 1] 5 Hw Hp))).
Defined.

(** ** The length guards *)

Lemma hamming_encode_wrong_length (l : list Z) :
  length l <> 4%nat -> hamming_encode l = Raise (ValueError msg_encode_length).
Proof.
  intros Hlen. unfold hamming_encode, py_len.
  destruct (Z.eqb_spec (Z.of_nat (length l)) 4) as [E | _]; [lia | reflexivity].
Qed.

Lemma hamming_encode_right_length (l : list Z) :
  length l = 4%nat -> exists cw, hamming_encode l = Ok cw.
Proof.
  intros Hlen.
  destruct l as [|d1 [|d2 [|d3 [|d4 [|d5 l]]]]]; try discriminate Hlen.
  eexists. apply hamming_encode_four.
Qed.

Lemma hamming_decode_wrong_length (l : list Z) :
  length l <> 7%nat ->
  result (hamming_decode l) = Raise (ValueError msg_decode_length).
Proof.
  intros Hlen. unfold result, hamming_decode, py_len.
  destruct (Z.eqb_spec (Z.of_nat (length l)) 7) as [E | _]; [lia | reflexivity].
Qed.

Lemma hamming_decode_word (cw : list Z) :
  is_word 7 cw ->
  exists d p,
    result (hamming_decode cw) = Ok (d, p) /\ is_word 4 d /\ 0 <= p <= 7.
Proof.
  intros Hw.
  destruct (is_word_7_inv _ Hw)
    as (c1 & c2 & c3 & c4 & c5 & c6 & c7 & -> & _).
  pose proof (decode_position_range _ _ _ _ _ _ _ Hw) as Hpos.
  pose proof (decode_data_bits _ _ _ _ _ _ _ Hw) as Hdata.
  rewrite hamming_decode_any by apply Hpos.
  destruct (spec_decode c1 c2 c3 c4 c5 c6 c7) as [d p].
  exists d, p. auto.
Qed.

(** C5. On a sequence of bits, [hamming_encode] raises the length error
    exactly when the sequence does not have 4 elements, [hamming_decode]
    raises the length error exactly when it does not have 7 elements, and
    neither raises any other exception. *)
Theorem invalid_length_rejection (l : list Z) :
  Forall is_bit l ->
  (hamming_encode l = Raise (ValueError msg_encode_length)
   <-> length l <> 4%nat)
  /\ (forall e, hamming_encode l = Raise e -> e = ValueError msg_encode_length)
  /\ (result (hamming_decode l) = Raise (ValueError msg_decode_length)
      <-> length l <> 7%nat)
  /\ (forall e, result (hamming_decode l) = Raise e ->
                e = ValueError msg_decode_length).
Proof.
  intros Hbits.
  assert (Henc : length l <> 4%nat \/ length l = 4%nat) by lia.
  assert (Hdec : length l <> 7%nat \/ length l = 7%nat) by lia.
  repeat split.
  - intros Hraise Hlen.
    destruct (hamming_encode_right_length l Hlen) as [cw Hcw]. congruence.
  - apply hamming_encode_wrong_length.
  - intros e He. destruct Henc as [Hlen | Hlen].
    + rewrite (hamming_encode_wrong_length l Hlen) in He. congruence.
    + destruct (hamming_encode_right_length l Hlen) as [cw Hcw]. congruence.
  - intros Hraise Hlen.
    destruct (hamming_decode_word l (conj Hlen Hbits)) as (d & p & Hr & _).
    congruence.
  - apply hamming_decode_wrong_length.
  - intros e He. destruct Hdec as [Hlen | Hlen].
    + rewrite (hamming_decode_wrong_length l Hlen) in He. congruence.
    + destruct (hamming_decode_word l (conj Hlen Hbits)) as (d & p & Hr & _).
      congruence.
Qed.

Lemma invalid_length_rejection_witness :
  hamming_encode [1; 0; 1] = Raise (ValueError msg_encode_length) /\
  result (hamming_decode [1; 0; 1]) = Raise (ValueError msg_decode_length).
Proof.
  assert (Hbits : Forall is_bit [1; 0; 1]) by bits_literal.
  destruct (invalid_length_rejection [1; 0; 1] Hbits) as (He & _ & Hd & _).
  split; [apply He | apply Hd]; discriminate.
Defined.

Example encode_rejects_3_bits :
  hamming_encode [1; 0; 1] = Raise (ValueError msg_encode_length).
Proof. reflexivity. Qed.

Example encode_rejects_5_bits :
  hamming_encode [1; 0; 1; 1; 0] = Raise (ValueError msg_encode_length).
Proof. reflexivity. Qed.

Example decode_rejects_6_bits :
  hamming_decode [0; 1; 1; 0; 0; 1] [] =
  (Raise (ValueError msg_decode_length), []).
Proof. reflexivity. Qed.

Example decode_rejects_8_bits :
  hamming_decode [0; 1; 1; 0; 0; 1; 1; 0] [] =
  (Raise (ValueError msg_decode_length), []).
Proof. reflexivity. Qed.

(** C6. [hamming_encode] returns on every word of four bits, and what it
    returns is a word of seven bits; [hamming_decode] returns on every word
    of seven bits, code word or not, and what it returns is a word of four
    bits together with a position between 0 and 7. *)
Theorem codec_total (d cw : list Z) :
  is_word 4 d ->
  is_word 7 cw ->
  (exists cw', hamming_encode d = Ok cw' /\ is_word 7 cw')
  /\ (exists d' p,
        result (hamming_decode cw) = Ok (d', p) /\ is_word 4 d' /\ 0 <= p <= 7).
Proof.
  intros Hd Hcw. split.
  - apply hamming_encode_bits, Hd.
  - apply hamming_decode_word, Hcw.
Qed.

Lemma codec_total_witness :
  (exists cw', hamming_encode [1; 0; 1; 1] = Ok cw' /\ is_word 7 cw')
  /\ (exists d' p,
        result (hamming_decode [1; 1; 1; 0; 0; 0; 1]) = Ok (d', p)
        /\ is_word 4 d' /\ 0 <= p <= 7).
Proof.
  apply (codec_total [1; 0; 1; 1] [1; 1; 1; 0; 0; 0; 1]); word_literal.
Defined.

(** ** The textual form of bit sequences *)

Lemma string_append_empty (s : string) : (s ++ EmptyString)%string = s.
Proof. induction s as [|c s IH]; simpl; [reflexivity | now rewrite IH]. Qed.

Lemma bits_to_str_cons (b : Z) (bits : list Z) :
  bits_to_str (b :: bits) = (py_str b ++ bits_to_str bits)%string.
Proof.
  unfold bits_to_str. simpl map.
  destruct (map py_str bits) as [|x xs]; simpl.
  - now rewrite string_append_empty.
  - reflexivity.
Qed.

(** C8. Every string made of the characters '0' and '1' only is parsed
    by [str_to_bits] into a sequence of bits, one per character, which
    [bits_to_str] serialises back to the same string. *)
Theorem bits_text_roundtrip (s : string) :
  Forall is_bit_char (list_ascii_of_string s) ->
  exists bits,
    str_to_bits s = Ok bits
    /\ Forall is_bit bits
    /\ length bits = String.length s
    /\ bits_to_str bits = s.
Proof.
  induction s as [|c s IH]; intros Hs.
  - exists []. repeat split. constructor.
  - simpl in Hs. apply Forall_cons_iff in Hs as [Hc Hs].
    destruct (IH Hs) as (bits & Hparse & Hbits & Hlen & Hstr).
    destruct Hc as [-> | ->].
    + exists (0 :: bits). simpl str_to_bits. rewrite Hparse.
      repeat split.
      * constructor; [left; reflexivity | assumption].
      * simpl. now rewrite Hlen.
      * rewrite bits_to_str_cons, Hstr. reflexivity.
    + exists (1 :: bits). simpl str_to_bits. rewrite Hparse.
      repeat split.
      * constructor; [right; reflexivity | assumption].
      * simpl. now rewrite Hlen.
      * rewrite bits_to_str_cons, Hstr. reflexivity.
Qed.

Lemma bits_text_roundtrip_witness :
  exists bits,
    str_to_bits "1011" = Ok bits
    /\ Forall is_bit bits
    /\ length bits = String.length "1011"
    /\ bits_to_str bits = "1011"%string.
Proof.
  apply (bits_text_roundtrip "1011").
  repeat constructor; first [ left; reflexivity | right; reflexivity ].
Defined.

(** Digits other than 0 and 1 are parsed as well, and any other character
    stops the parse with a ValueError. *)
Example str_to_bits_digit : str_to_bits "12" = Ok [1; 2].
Proof. reflexivity. Qed.

Example str_to_bits_letter :
  str_to_bits "1a" = Raise (ValueError "invalid literal for int() with base 10").
Proof. reflexivity. Qed.

(** ** The example of the script *)

(** C7, as amended. The data word 1011 is encoded as 0110011 (p1 = 0,
    p2 = 1, d1 = 1, p3 = 0, d2 = 0, d3 = 1, d4 = 1); flipping position 5 of
    that code word gives 0110111, and decoding it reports the error
    position 5 and returns the data 1011. The script itself, which runs
    this example and asserts both facts, ends without an exception. *)
Theorem known_example :
  str_to_bits "1011" = Ok [1; 0; 1; 1]
  /\ hamming_encode [1; 0; 1; 1] = Ok [0; 1; 1; 0; 0; 1; 1]
  /\ bits_to_str [0; 1; 1; 0; 0; 1; 1] = "0110011"%string
  /\ simulate_error [0; 1; 1; 0; 0; 1; 1] 5 = Ok [0; 1; 1; 0; 1; 1; 1]
  /\ bits_to_str [0; 1; 1; 0; 1; 1; 1] = "0110111"%string
  /\ result (hamming_decode [0; 1; 1; 0; 1; 1; 1]) = Ok ([1; 0; 1; 1], 5)
  /\ result main = Ok tt.
Proof. repeat split; vm_compute; reflexivity. Qed.

(** C7, as stated, fails: the code word of 1011 is not 0111011 (its p3
    is 0, not 1); 0110011, given as the corrupted word, is the code word
    itself and decodes with position 0; and 0111011 with position 5 flipped
    decodes to 1111 with position 1. *)
Lemma known_example_as_stated_fails :
  hamming_encode [1; 0; 1; 1] <> Ok [0; 1; 1; 1; 0; 1; 1]
  /\ result (hamming_decode [0; 1; 1; 0; 0; 1; 1]) = Ok ([1; 0; 1; 1], 0)
  /\ result (hamming_decode [0; 1; 1; 0; 0; 1; 1]) <> Ok ([1; 0; 1; 1], 5)
  /\ simulate_error [0; 1; 1; 1; 0; 1; 1] 5 = Ok [0; 1; 1; 1; 1; 1; 1]
  /\ result (hamming_decode [0; 1; 1; 1; 1; 1; 1]) = Ok ([1; 1; 1; 1], 1).
Proof.
  repeat split; try (vm_compute; reflexivity); vm_compute; discriminate.
Qed.

(** ** The diagnostic of the length guards *)

Lemma digits_of_uint (u : Decimal.uint) :
  all_digits (NilEmpty.string_of_uint u) = true.
Proof. induction u; simpl; auto. Qed.

Lemma py_str_nonneg (z : Z) :
  0 <= z -> all_digits (py_str z) = true /\ py_str z <> EmptyString.
Proof.
  intros Hz. unfold py_str.
  destruct z as [|p|p]; [split; [reflexivity | discriminate] | | lia].
  simpl. generalize (digits_of_uint (Pos.to_uint p)).
  destruct (Pos.to_uint p); simpl; intros Hd; (split; [assumption | discriminate]).
Qed.

(** [str] is injective at the strings that parse back to their number. *)
Lemma py_str_inj (z : Z) (d : Decimal.uint) :
  py_str z = NilZero.string_of_int (Decimal.Pos d) ->
  NilZero.int_of_string (NilZero.string_of_int (Decimal.Pos d))
  = Some (Decimal.Pos d) ->
  z = Z.of_int (Decimal.Pos d).
Proof.
  unfold py_str. intros H Hparse.
  rewrite <- (DecimalZ.of_to z).
  remember (Z.to_int z) as i eqn:Ei. clear Ei.
  assert (Hi : i = Decimal.Pos Decimal.Nil \/ i = Decimal.Neg Decimal.Nil \/
               (i <> Decimal.Pos Decimal.Nil /\ i <> Decimal.Neg Decimal.Nil)).
  { destruct i as [u | u]; destruct u; auto; right; right; split; discriminate. }
  rewrite <- H in Hparse.
  destruct Hi as [-> | [-> | [Hp Hn]]].
  - injection Hparse as <-. reflexivity.
  - discriminate Hparse.
  - rewrite (NilZero.isi i Hp Hn) in Hparse. injection Hparse as ->. reflexivity.
Qed.

Lemma digit_char_cases (c : ascii) :
  (48 <=? Z.of_nat (nat_of_ascii c)) && (Z.of_nat (nat_of_ascii c) <=? 57) = true ->
  In c ["0"; "1"; "2"; "3"; "4"; "5"; "6"; "7"; "8"; "9"]%char.
Proof.
  destruct c as [[] [] [] [] [] [] [] []]; intros H;
    first [ discriminate H | simpl; tauto ].
Qed.

(** The only digit of either message is one isolated character, so the
    only run of digits a message shows is its expected length. *)
Lemma message_digits (needle : string) :
  all_digits needle = true ->
  needle <> EmptyString ->
  (mentions needle msg_encode_length = true -> needle = "4"%string)
  /\ (mentions needle msg_decode_length = true -> needle = "7"%string).
Proof.
  destruct needle as [|c [|c' rest]]; intros Hd Hne; [congruence | | ];
    simpl in Hd; apply andb_prop in Hd as [Hc Hrest];
    apply digit_char_cases in Hc; simpl in Hc.
  - repeat (destruct Hc as [<- | Hc]); [.. | destruct Hc];
      (split; intros Hm; vm_compute in Hm;
       first [ discriminate Hm | reflexivity ]).
  - apply andb_prop in Hrest as [Hc' _].
    apply digit_char_cases in Hc'; simpl in Hc'.
    repeat (destruct Hc as [<- | Hc]); [.. | destruct Hc];
      (repeat (destruct Hc' as [<- | Hc']); [.. | destruct Hc'];
       (split; intros Hm; vm_compute in Hm; discriminate Hm)).
Qed.

Lemma encode_message_omits_length (l : list Z) :
  length l <> 4%nat -> mentions (py_str (py_len l)) msg_encode_length = false.
Proof.
  intros Hlen.
  destruct (mentions (py_str (py_len l)) msg_encode_length) eqn:Hm; [|reflexivity].
  exfalso. apply Hlen.
  assert (Hnn : 0 <= py_len l) by (unfold py_len; lia).
  destruct (py_str_nonneg _ Hnn) as [Hd Hne].
  pose proof (proj1 (message_digits _ Hd Hne) Hm) as H4.
  apply (py_str_inj _ (Decimal.D4 Decimal.Nil)) in H4; [|reflexivity].
  change (Z.of_int _) with 4 in H4. unfold py_len in H4. lia.
Qed.

Lemma decode_message_omits_length (l : list Z) :
  length l <> 7%nat -> mentions (py_str (py_len l)) msg_decode_length = false.
Proof.
  intros Hlen.
  destruct (mentions (py_str (py_len l)) msg_decode_length) eqn:Hm; [|reflexivity].
  exfalso. apply Hlen.
  assert (Hnn : 0 <= py_len l) by (unfold py_len; lia).
  destruct (py_str_nonneg _ Hnn) as [Hd Hne].
  pose proof (proj2 (message_digits _ Hd Hne) Hm) as H7.
  apply (py_str_inj _ (Decimal.D7 Decimal.Nil)) in H7; [|reflexivity].
  change (Z.of_int _) with 7 in H7. unfold py_len in H7. lia.
Qed.

(** C9, as amended. When the length is wrong, [hamming_encode] and
    [hamming_decode] raise a ValueError whose text is fixed: it shows the
    expected length (4 and 7), is the same whatever the input, and does
    not show the actual length of the input. *)
Theorem length_diagnostic (data_bits codeword : list Z) :
  length data_bits <> 4%nat ->
  length codeword <> 7%nat ->
  hamming_encode data_bits = Raise (ValueError msg_encode_length)
  /\ result (hamming_decode codeword) = Raise (ValueError msg_decode_length)
  /\ mentions (py_str 4) msg_encode_length = true
  /\ mentions (py_str 7) msg_decode_length = true
  /\ mentions (py_str (py_len data_bits)) msg_encode_length = false
  /\ mentions (py_str (py_len codeword)) msg_decode_length = false.
Proof.
  intros Hd Hc. repeat split.
  - apply hamming_encode_wrong_length, Hd.
  - apply hamming_decode_wrong_length, Hc.
  - apply encode_message_omits_length, Hd.
  - apply decode_message_omits_length, Hc.
Qed.

Lemma length_diagnostic_witness :
  hamming_encode [1; 0; 1] = Raise (ValueError msg_encode_length)
  /\ result (hamming_decode [1; 0; 1; 1; 0; 0; 1; 1])
     = Raise (ValueError msg_decode_length)
  /\ mentions (py_str 4) msg_encode_length = true
  /\ mentions (py_str 7) msg_decode_length = true
  /\ mentions (py_str (py_len [1; 0; 1])) msg_encode_length = false
  /\ mentions (py_str (py_len [1; 0; 1; 1; 0; 0; 1; 1])) msg_decode_length = false.
Proof.
  apply (length_diagnostic [1; 0; 1] [1; 0; 1; 1; 0; 0; 1; 1]); discriminate.
Defined.

(** C9, as stated, fails: on the three-bit input 101 both functions
    raise the length error, and its text does not show the actual length
    3; inputs of different lengths get the very same exception. *)
Lemma diagnostic_omits_actual_length :
  (exists e, hamming_encode [1; 0; 1] = Raise e
             /\ identifies_lengths 4 (py_len [1; 0; 1]) e = false)
  /\ (exists e, result (hamming_decode [1; 0; 1]) = Raise e
                /\ identifies_lengths 7 (py_len [1; 0; 1]) e = false)
  /\ hamming_encode [1; 0; 1] = hamming_encode [1; 0; 1; 1; 0]
  /\ result (hamming_decode [1; 0; 1]) =
     result (hamming_decode [1; 0; 1; 1; 0; 0; 1; 1]).
Proof.
  repeat split; try (eexists; split; vm_compute; reflexivity).
Qed.

(** ** Absence of a check of the values *)

(** What the decoder does with seven integers is decided by the
    position it computes alone. *)
Lemma hamming_decode_outcome (c1 c2 c3 c4 c5 c6 c7 : Z) :
  let pos := Z.lxor (Z.lxor (Z.lxor c4 c5) c6) c7 * 4
             + Z.lxor (Z.lxor (Z.lxor c2 c3) c6) c7 * 2
             + Z.lxor (Z.lxor (Z.lxor c1 c3) c5) c7 * 1 in
  (pos <= 7 /\ exists r, result (hamming_decode [c1; c2; c3; c4; c5; c6; c7]) = Ok r)
  \/ (7 < pos /\ int_max_str_digits < int_digits pos /\
      exists msg,
        result (hamming_decode [c1; c2; c3; c4; c5; c6; c7])
        = Raise (ValueError msg) /\ msg <> msg_decode_length)
  \/ (7 < pos /\ int_digits pos <= int_max_str_digits /\
      exists msg,
        result (hamming_decode [c1; c2; c3; c4; c5; c6; c7])
        = Raise (IndexError msg)).
Proof.
  intros pos. unfold result. subst pos. rewrite hamming_decode_run.
  remember (Z.lxor (Z.lxor (Z.lxor c4 c5) c6) c7 * 4
            + Z.lxor (Z.lxor (Z.lxor c2 c3) c6) c7 * 2
            + Z.lxor (Z.lxor (Z.lxor c1 c3) c5) c7 * 1) as pos eqn:Hpos.
  clear Hpos.
  destruct (Z.leb_spec pos 0) as [H0 | H0];
    [left; split; [lia | eexists; reflexivity]|].
  destruct (Z.leb_spec pos 7) as [H7 | H7];
    [left; split; [lia | eexists; reflexivity]|].
  right.
  destruct (Z.ltb_spec int_max_str_digits (int_digits pos)) as [Hd | Hd].
  - left. repeat split; [exact H7 | exact Hd |].
    eexists. split; [reflexivity | discriminate].
  - right. repeat split; [exact H7 | exact Hd |].
    destruct (ssize_max <? pos - 1); eexists; reflexivity.
Qed.

(** C10, as amended. Only the length is checked. [hamming_encode] on
    [2, 0, 0, 0] raises nothing and returns seven elements of which one is
    2, and it returns on every list of four integers. [hamming_decode] has
    no check of the values either and never raises its length error on a
    list of seven integers, but it does not return on all of them: it
    returns exactly when the position it computes, [s3*4 + s2*2 + s1], is
    at most 7, as on [2, 0, 0, 0, 0, 0, 0]; on a larger position it raises
    the IndexError of the subscript, or, only when the position has more
    than 4300 digits, the ValueError of the conversion to text. *)
Theorem no_bit_validation :
  (exists cw,
     hamming_encode [2; 0; 0; 0] = Ok cw
     /\ length cw = 7%nat /\ In 2 cw /\ ~ Forall is_bit cw)
  /\ (forall d1 d2 d3 d4 : Z, exists cw, hamming_encode [d1; d2; d3; d4] = Ok cw)
  /\ (forall c1 c2 c3 c4 c5 c6 c7 : Z,
        let pos := Z.lxor (Z.lxor (Z.lxor c4 c5) c6) c7 * 4
                   + Z.lxor (Z.lxor (Z.lxor c2 c3) c6) c7 * 2
                   + Z.lxor (Z.lxor (Z.lxor c1 c3) c5) c7 * 1 in
        ((exists r, result (hamming_decode [c1; c2; c3; c4; c5; c6; c7]) = Ok r)
         <-> pos <= 7)
        /\ result (hamming_decode [c1; c2; c3; c4; c5; c6; c7])
           <> Raise (ValueError msg_decode_length)
        /\ (forall e,
              result (hamming_decode [c1; c2; c3; c4; c5; c6; c7]) = Raise e ->
              (exists msg, e = IndexError msg)
              \/ ((exists msg, e = ValueError msg)
                  /\ int_max_str_digits < int_digits pos)))
  /\ result (hamming_decode [2; 0; 0; 0; 0; 0; 0]) = Ok ([0; 0; 0; 0], 2).
Proof.
  split; [|split; [|split]].
  - exists [2; 2; 2; 0; 0; 0; 0]. repeat split.
    + left; reflexivity.
    + intros HF. apply Forall_cons_iff in HF as [[H | H] _]; discriminate H.
  - intros d1 d2 d3 d4. eexists. apply hamming_encode_four.
  - intros c1 c2 c3 c4 c5 c6 c7 pos. subst pos.
    destruct (hamming_decode_outcome c1 c2 c3 c4 c5 c6 c7)
      as [[Hle [r Hr]] | [(Hgt & Hd & msg & Hv & Hne) | (Hgt & Hd & msg & Hi)]].
    + split; [split; [intros _; exact Hle | intros _; exists r; exact Hr]|].
      split; [congruence | intros e He; congruence].
    + split; [split; [intros [r Hr]; congruence | lia]|].
      split; [rewrite Hv; congruence|].
      intros e He. right. split; [exists msg; congruence | exact Hd].
    + split; [split; [intros [r Hr]; congruence | lia]|].
      split; [rewrite Hi; discriminate|].
      intros e He. left. exists msg. congruence.
  - vm_compute. reflexivity.
Qed.

(** C10, as stated, fails: the list [8, 0, 0, 0, 0, 0, 0] has seven
    integers and the decoder does not accept it; the position it computes
    is 8 and the subscript raises IndexError. *)
Lemma decode_does_not_accept_every_list :
  length [8; 0; 0; 0; 0; 0; 0] = 7%nat
  /\ result (hamming_decode [8; 0; 0; 0; 0; 0; 0])
     = Raise (IndexError "list index out of range").
Proof. split; vm_compute; reflexivity. Qed.

Example decode_subscript_failure :
  hamming_decode [8; 0; 0; 0; 0; 0; 0] [] =
  (Raise (IndexError "list index out of range"), ["    [偵測] 錯誤發生在位置 8"%string]).
Proof. vm_compute. reflexivity. Qed.

(** * Further properties of the script *)

(** ** The decoder on arbitrary integers *)

(** X1. On seven arbitrary integers the decoder computes the position
    from the values as they are. It returns exactly when the position is at
    most 7: a position of 0 or less (negative values give negative
    positions) with the elements 3, 5, 6, 7 untouched, a position from 1 to
    7 with that element replaced by [1 - element] before the extraction. A
    position above 7 makes it raise: ValueError exactly when the position
    has more than 4300 digits and cannot be converted to text for the first
    message; otherwise the IndexError of the subscript, which reads "cannot
    fit 'int' into an index-sized integer" when the index [position - 1]
    exceeds 2^63 - 1 and "list index out of range" when it does not. *)
Theorem decode_on_integers (c1 c2 c3 c4 c5 c6 c7 : Z) :
  let pos := Z.lxor (Z.lxor (Z.lxor c4 c5) c6) c7 * 4
             + Z.lxor (Z.lxor (Z.lxor c2 c3) c6) c7 * 2
             + Z.lxor (Z.lxor (Z.lxor c1 c3) c5) c7 * 1 in
  let received := [c1; c2; c3; c4; c5; c6; c7] in
  match result (hamming_decode received) with
  | Ok r =>
      pos <= 7
      /\ r = if pos <=? 0 then ([c3; c5; c6; c7], pos)
             else ([bit_at (flip_at pos received) 3;
                    bit_at (flip_at pos received) 5;
                    bit_at (flip_at pos received) 6;
                    bit_at (flip_at pos received) 7], pos)
  | Raise (ValueError _) => 7 < pos /\ int_max_str_digits < int_digits pos
  | Raise (IndexError msg) =>
      7 < pos /\ int_digits pos <= int_max_str_digits
      /\ msg = if ssize_max <? pos - 1 then msg_index_size
               else "list index out of range"%string
  | Raise AssertionError => False
  end.
Proof.
  intros pos received. unfold result. subst pos received.
  rewrite hamming_decode_run.
  remember (Z.lxor (Z.lxor (Z.lxor c4 c5) c6) c7 * 4
            + Z.lxor (Z.lxor (Z.lxor c2 c3) c6) c7 * 2
            + Z.lxor (Z.lxor (Z.lxor c1 c3) c5) c7 * 1) as pos eqn:Hpos.
  clear Hpos.
  destruct (Z.leb_spec pos 0) as [H0 | H0]; [cbn; split; [lia | reflexivity]|].
  destruct (Z.leb_spec pos 7) as [H7 | H7]; [cbn; split; [lia | reflexivity]|].
  destruct (Z.ltb_spec int_max_str_digits (int_digits pos)) as [Hd | Hd];
    [cbn; split; assumption|].
  destruct (ssize_max <? pos - 1); cbn; repeat split; assumption.
Qed.

Example decode_negative_position :
  result (hamming_decode [-1; 0; 0; 0; 0; 0; 0]) = Ok ([0; 0; 0; 0], -1).
Proof. reflexivity. Qed.

Example decode_unprintable_position :
  exists msg,
    hamming_decode [10 ^ 4300; 0; 0; 0; 0; 0; 0] [] = (Raise (ValueError msg), []).
Proof. exists msg_str_digits. vm_compute. reflexivity. Qed.

Example decode_longest_printable_position :
  exists line,
    hamming_decode [10 ^ 4300 - 1; 0; 0; 0; 0; 0; 0] [] =
    (Raise (IndexError msg_index_size), [line]).
Proof. eexists. vm_compute. reflexivity. Qed.

Example decode_index_overflow :
  hamming_decode [2 ^ 63 + 1; 0; 0; 0; 0; 0; 0] [] =
  (Raise (IndexError msg_index_size),
   ["    [偵測] 錯誤發生在位置 9223372036854775809"%string]).
Proof. vm_compute. reflexivity. Qed.

(** X2. What the decoder prints on seven integers: the single line "no
    error detected" when the position is 0 or less; the line announcing the
    position followed by the line announcing the correction when the
    position is from 1 to 7. When the position is above 7 it prints nothing
    at all if the position has more than 4300 digits (the conversion to
    text fails before the first line is written), and otherwise the
    announcement of the position alone, with no correction line, since the
    subscript then fails. *)
Theorem decode_printed_lines (c1 c2 c3 c4 c5 c6 c7 : Z) :
  let pos := Z.lxor (Z.lxor (Z.lxor c4 c5) c6) c7 * 4
             + Z.lxor (Z.lxor (Z.lxor c2 c3) c6) c7 * 2
             + Z.lxor (Z.lxor (Z.lxor c1 c3) c5) c7 * 1 in
  printed (hamming_decode [c1; c2; c3; c4; c5; c6; c7]) =
  if pos <=? 0 then ["    [偵測] 未偵測到錯誤。"%string]
  else if pos <=? 7 then
    [("    [偵測] 錯誤發生在位置 " ++ py_str pos)%string;
     ("    [修正] 已將位置 " ++ py_str pos ++ " 的位元反轉。")%string]
  else if int_max_str_digits <? int_digits pos then []
  else [("    [偵測] 錯誤發生在位置 " ++ py_str pos)%string].
Proof.
  intros pos. unfold printed. subst pos.
  rewrite hamming_decode_run.
  repeat match goal with
         | |- context [if ?b then _ else _] => destruct b
         end; reflexivity.
Qed.

(** The syndrome of what the encoder returns is zero, whatever the
    integers. *)
Lemma encoded_position_zero (d1 d2 d3 d4 : Z) :
  Z.lxor (Z.lxor (Z.lxor (Z.lxor (Z.lxor d2 d3) d4) d2) d3) d4 * 4
  + Z.lxor (Z.lxor (Z.lxor (Z.lxor (Z.lxor d1 d3) d4) d1) d3) d4 * 2
  + Z.lxor (Z.lxor (Z.lxor (Z.lxor (Z.lxor d1 d2) d4) d1) d2) d4 * 1 = 0.
Proof.
  assert (E3 : Z.lxor (Z.lxor (Z.lxor (Z.lxor (Z.lxor d2 d3) d4) d2) d3) d4 = 0)
    by xor_bits.
  assert (E2 : Z.lxor (Z.lxor (Z.lxor (Z.lxor (Z.lxor d1 d3) d4) d1) d3) d4 = 0)
    by xor_bits.
  assert (E1 : Z.lxor (Z.lxor (Z.lxor (Z.lxor (Z.lxor d1 d2) d4) d1) d2) d4 = 0)
    by xor_bits.
  rewrite E1, E2, E3. reflexivity.
Qed.

Lemma decode_encoded_integers (d1 d2 d3 d4 : Z) :
  hamming_decode
    [Z.lxor (Z.lxor d1 d2) d4; Z.lxor (Z.lxor d1 d3) d4; d1;
     Z.lxor (Z.lxor d2 d3) d4; d2; d3; d4] [] =
  (Ok ([d1; d2; d3; d4], 0), ["    [偵測] 未偵測到錯誤。"%string]).
Proof.
  rewrite hamming_decode_run, encoded_position_zero. reflexivity.
Qed.

(** X3. The round trip without corruption does not depend on the
    elements being bits: for any four integers, decoding what the encoder
    returns gives the four integers back with position 0, and prints only
    the "no error detected" line. *)
Theorem roundtrip_on_integers (d : list Z) :
  length d = 4%nat ->
  exists cw,
    hamming_encode d = Ok cw
    /\ hamming_decode cw [] = (Ok (d, 0), ["    [偵測] 未偵測到錯誤。"%string]).
Proof.
  intros Hlen.
  destruct d as [|d1 [|d2 [|d3 [|d4 [|d5 d]]]]]; try discriminate Hlen.
  eexists. split; [apply hamming_encode_four | apply decode_encoded_integers].
Qed.

Lemma roundtrip_on_integers_witness :
  exists cw,
    hamming_encode [5; -3; 0; 12] = Ok cw
    /\ hamming_decode cw [] =
       (Ok ([5; -3; 0; 12], 0), ["    [偵測] 未偵測到錯誤。"%string]).
Proof. apply (roundtrip_on_integers [5; -3; 0; 12]). reflexivity. Defined.

(** X4. The encoder is systematic on every input it accepts: the result
    has seven elements and the input can be read back from its positions
    3, 5, 6 and 7, so two inputs with the same code word are equal. *)
Theorem encode_systematic (d d' cw : list Z) :
  hamming_encode d = Ok cw ->
  length cw = 7%nat
  /\ d = [bit_at cw 3; bit_at cw 5; bit_at cw 6; bit_at cw 7]
  /\ (hamming_encode d' = Ok cw -> d' = d).
Proof.
  assert (Hsys : forall x c, hamming_encode x = Ok c ->
            length c = 7%nat
            /\ x = [bit_at c 3; bit_at c 5; bit_at c 6; bit_at c 7]).
  { intros x c Hx.
    assert (Hlen : length x = 4%nat).
    { destruct (Nat.eq_dec (length x) 4%nat) as [E | E]; [exact E|].
      rewrite (hamming_encode_wrong_length x E) in Hx. discriminate Hx. }
    destruct x as [|x1 [|x2 [|x3 [|x4 [|x5 x]]]]]; try discriminate Hlen.
    rewrite hamming_encode_four in Hx. injection Hx as <-.
    split; reflexivity. }
  intros Hd. destruct (Hsys d cw Hd) as [Hlen Hdata].
  repeat split; try assumption.
  intros Hd'. destruct (Hsys d' cw Hd') as [_ Hdata']. congruence.
Qed.

Lemma encode_systematic_witness :
  length [0; 1; 1; 0; 0; 1; 1] = 7%nat
  /\ [1; 0; 1; 1] = [bit_at [0; 1; 1; 0; 0; 1; 1] 3; bit_at [0; 1; 1; 0; 0; 1; 1] 5;
                     bit_at [0; 1; 1; 0; 0; 1; 1] 6; bit_at [0; 1; 1; 0; 0; 1; 1] 7]
  /\ (hamming_encode [1; 0; 1; 1] = Ok [0; 1; 1; 0; 0; 1; 1] ->
      [1; 0; 1; 1] = [1; 0; 1; 1]).
Proof.
  apply (encode_systematic [1; 0; 1; 1] [1; 0; 1; 1] [0; 1; 1; 0; 0; 1; 1]).
  reflexivity.
Defined.

(** X5. The encoder is linear for the exclusive or: on any two inputs of
    four integers, the code word of their position by position exclusive or
    is the position by position exclusive or of their code words. *)
Theorem encode_linear (d e : list Z) :
  length d = 4%nat ->
  length e = 4%nat ->
  exists cd ce,
    hamming_encode d = Ok cd
    /\ hamming_encode e = Ok ce
    /\ hamming_encode (xor_words d e) = Ok (xor_words cd ce).
Proof.
  intros Hd He.
  destruct d as [|d1 [|d2 [|d3 [|d4 [|d5 d]]]]]; try discriminate Hd.
  destruct e as [|e1 [|e2 [|e3 [|e4 [|e5 e]]]]]; try discriminate He.
  do 2 eexists. split; [apply hamming_encode_four|].
  split; [apply hamming_encode_four|].
  change (xor_words [d1; d2; d3; d4] [e1; e2; e3; e4])
    with [Z.lxor d1 e1; Z.lxor d2 e2; Z.lxor d3 e3; Z.lxor d4 e4].
  rewrite hamming_encode_four. unfold xor_words. simpl zip_with.
  do 2 f_equal; [xor_bits|]. f_equal; [xor_bits|]. do 2 f_equal. xor_bits.
Qed.

Lemma encode_linear_witness :
  exists cd ce,
    hamming_encode [1; 0; 1; 1] = Ok cd
    /\ hamming_encode [0; 1; 1; 0] = Ok ce
    /\ hamming_encode (xor_words [1; 0; 1; 1] [0; 1; 1; 0]) = Ok (xor_words cd ce).
Proof. apply (encode_linear [1; 0; 1; 1] [0; 1; 1; 0]); reflexivity. Defined.

(** ** The code and its decoder on words of bits *)

(** X6. Two errors are never recovered. For every data word of four
    bits and every two distinct positions from 1 to 7, decoding the code
    word with both bits flipped raises nothing: it reports the third
    position [p xor q], which is neither 0 nor one of the two flipped
    positions, and returns data that differ from the original. *)
Theorem double_error_miscorrected (d : list Z) (p q : Z) :
  is_word 4 d ->
  1 <= p <= 7 ->
  1 <= q <= 7 ->
  p <> q ->
  exists cw d',
    hamming_encode d = Ok cw
    /\ result (hamming_decode (flip_at q (flip_at p cw))) = Ok (d', Z.lxor p q)
    /\ d' <> d
    /\ 1 <= Z.lxor p q <= 7 /\ Z.lxor p q <> p /\ Z.lxor p q <> q.
Proof.
  intros Hd Hp Hq Hpq.
  destruct (is_word_4_inv d Hd) as (d1 & d2 & d3 & d4 & -> & B1 & B2 & B3 & B4).
  assert (Hpc : p = 1 \/ p = 2 \/ p = 3 \/ p = 4 \/ p = 5 \/ p = 6 \/ p = 7)
    by lia.
  assert (Hqc : q = 1 \/ q = 2 \/ q = 3 \/ q = 4 \/ q = 5 \/ q = 6 \/ q = 7)
    by lia.
  clear Hp Hq Hd.
  repeat destruct Hpc as [-> | Hpc]; try subst p;
    repeat destruct Hqc as [-> | Hqc]; try subst q;
    try (exfalso; apply Hpq; reflexivity); clear Hpq;
    split_bits;
    (do 2 eexists;
     split; [cbv; reflexivity|];
     split; [reflexivity|];
     split; [discriminate|];
     vm_compute; repeat split; discriminate).
Qed.

Lemma double_error_miscorrected_witness :
  exists cw d',
    hamming_encode [1; 0; 1; 1] = Ok cw
    /\ result (hamming_decode (flip_at 6 (flip_at 3 cw))) = Ok (d', Z.lxor 3 6)
    /\ d' <> [1; 0; 1; 1]
    /\ 1 <= Z.lxor 3 6 <= 7 /\ Z.lxor 3 6 <> 3 /\ Z.lxor 3 6 <> 6.
Proof.
  apply (double_error_miscorrected [1; 0; 1; 1] 3 6);
    first [ word_literal | split; discriminate | discriminate ].
Defined.

(** X7. Every word of seven bits is decoded to the nearest code word:
    encoding the data the decoder returns gives the received word with at
    most the bit at the reported position changed, and decoding that code
    word again gives the same data with position 0. *)
Theorem decode_nearest_code_word (cw : list Z) :
  is_word 7 cw ->
  exists d p,
    result (hamming_decode cw) = Ok (d, p)
    /\ hamming_encode d = Ok (if 0 <? p then flip_at p cw else cw)
    /\ (hamming_distance cw (if 0 <? p then flip_at p cw else cw)%Z <= 1)%nat
    /\ result (hamming_decode (if 0 <? p then flip_at p cw else cw)) = Ok (d, 0).
Proof.
  intros Hw.
  destruct (is_word_7_inv _ Hw)
    as (c1 & c2 & c3 & c4 & c5 & c6 & c7 & -> & B1 & B2 & B3 & B4 & B5 & B6 & B7).
  clear Hw.
  split_bits;
    (do 2 eexists; split; [cbv; reflexivity|];
     split; [reflexivity|]; split; [vm_compute; lia | reflexivity]).
Qed.

Lemma decode_nearest_code_word_witness :
  exists d p,
    result (hamming_decode [1; 1; 1; 0; 0; 0; 1]) = Ok (d, p)
    /\ hamming_encode d = Ok (if 0 <? p then flip_at p [1; 1; 1; 0; 0; 0; 1]
                              else [1; 1; 1; 0; 0; 0; 1])
    /\ (hamming_distance [1; 1; 1; 0; 0; 0; 1]%Z
          (if 0 <? p then flip_at p [1; 1; 1; 0; 0; 0; 1]
           else [1; 1; 1; 0; 0; 0; 1])%Z <= 1)%nat
    /\ result (hamming_decode (if 0 <? p then flip_at p [1; 1; 1; 0; 0; 0; 1]
                               else [1; 1; 1; 0; 0; 0; 1])) = Ok (d, 0).
Proof. apply (decode_nearest_code_word [1; 1; 1; 0; 0; 0; 1]). word_literal. Defined.

(** X8. On a word of seven bits the decoder reports position 0 exactly
    when the word is a code word, that is, when the encoder returns it for
    some input. *)
Theorem position_zero_iff_code_word (cw : list Z) :
  is_word 7 cw ->
  (exists d, result (hamming_decode cw) = Ok (d, 0))
  <-> (exists d, hamming_encode d = Ok cw).
Proof.
  intros Hw. split.
  - destruct (is_word_7_inv _ Hw)
      as (c1 & c2 & c3 & c4 & c5 & c6 & c7 & -> & B1 & B2 & B3 & B4 & B5 & B6 & B7).
    clear Hw. intros [d Hd].
    split_bits; vm_compute in Hd;
      first [ discriminate Hd
            | injection Hd as Hd; exists d; rewrite <- Hd; reflexivity ].
  - intros [d Hd].
    assert (Hlen : length d = 4%nat).
    { destruct (Nat.eq_dec (length d) 4%nat) as [E | E]; [exact E|].
      rewrite (hamming_encode_wrong_length d E) in Hd. discriminate Hd. }
    destruct d as [|d1 [|d2 [|d3 [|d4 [|d5 d]]]]]; try discriminate Hlen.
    rewrite hamming_encode_four in Hd. injection Hd as <-.
    eexists. unfold result. rewrite decode_encoded_integers. reflexivity.
Qed.

Lemma position_zero_iff_code_word_witness :
  (exists d, result (hamming_decode [0; 1; 1; 0; 0; 1; 1]) = Ok (d, 0))
  <-> (exists d, hamming_encode d = Ok [0; 1; 1; 0; 0; 1; 1]).
Proof. apply (position_zero_iff_code_word [0; 1; 1; 0; 0; 1; 1]). word_literal. Defined.

(** X9. The code has minimum distance 3: the code words of two different
    data words of four bits differ in at least three positions. *)
Theorem minimum_distance (d d' : list Z) :
  is_word 4 d ->
  is_word 4 d' ->
  d <> d' ->
  exists cw cw',
    hamming_encode d = Ok cw
    /\ hamming_encode d' = Ok cw'
    /\ (3 <= hamming_distance cw cw')%nat.
Proof.
  intros Hd Hd' Hne.
  destruct (is_word_4_inv d Hd) as (d1 & d2 & d3 & d4 & -> & B1 & B2 & B3 & B4).
  destruct (is_word_4_inv d' Hd') as (e1 & e2 & e3 & e4 & -> & C1 & C2 & C3 & C4).
  clear Hd Hd'.
  split_bits; try (exfalso; apply Hne; reflexivity); clear Hne;
    (do 2 eexists; split; [cbv; reflexivity|];
     split; [cbv; reflexivity|]; vm_compute; lia).
Qed.

Lemma minimum_distance_witness :
  exists cw cw',
    hamming_encode [1; 0; 1; 1] = Ok cw
    /\ hamming_encode [1; 0; 1; 0] = Ok cw'
    /\ (3 <= hamming_distance cw cw')%nat.
Proof.
  apply (minimum_distance [1; 0; 1; 1] [1; 0; 1; 0]);
    first [ word_literal | discriminate ].
Defined.

(** X10. What the decoder reports depends on the error pattern only, not
    on the data: for a data word [d] of four bits and any pattern [e] of
    seven bits, decoding the code word of [d] with [e] added by exclusive or
    reports the position that decoding [e] alone reports, and returns [d]
    with the data decoded from [e] added by exclusive or. *)
Theorem decode_error_pattern (d e : list Z) :
  is_word 4 d ->
  is_word 7 e ->
  exists cw de p,
    hamming_encode d = Ok cw
    /\ result (hamming_decode e) = Ok (de, p)
    /\ result (hamming_decode (xor_words cw e)) = Ok (xor_words d de, p).
Proof.
  intros Hd He.
  destruct (is_word_4_inv d Hd) as (d1 & d2 & d3 & d4 & -> & B1 & B2 & B3 & B4).
  destruct (is_word_7_inv e He)
    as (c1 & c2 & c3 & c4 & c5 & c6 & c7 & -> & C1 & C2 & C3 & C4 & C5 & C6 & C7).
  clear Hd He.
  split_bits;
    (do 3 eexists; split; [cbv; reflexivity|];
     split; [cbv; reflexivity | reflexivity]).
Qed.

Lemma decode_error_pattern_witness :
  exists cw de p,
    hamming_encode [1; 0; 1; 1] = Ok cw
    /\ result (hamming_decode [0; 0; 0; 0; 1; 0; 1]) = Ok (de, p)
    /\ result (hamming_decode (xor_words cw [0; 0; 0; 0; 1; 0; 1]))
       = Ok (xor_words [1; 0; 1; 1] de, p).
Proof.
  apply (decode_error_pattern [1; 0; 1; 1] [0; 0; 0; 0; 1; 0; 1]); word_literal.
Defined.

(** ** The textual form beyond bits *)

Lemma string_length_app (s t : string) :
  String.length (s ++ t) = (String.length s + String.length t)%nat.
Proof. induction s as [|c s IH]; simpl; [reflexivity | now rewrite IH]. Qed.

Lemma str_to_bits_app (s t : string) :
  str_to_bits (s ++ t) =
  res_bind (str_to_bits s) (fun l1 =>
  res_bind (str_to_bits t) (fun l2 => Ok (l1 ++ l2))).
Proof.
  induction s as [|c s IH]; simpl.
  - destruct (str_to_bits t); reflexivity.
  - destruct (py_int_of_char c) as [x|e]; simpl; [|reflexivity].
    rewrite IH. destruct (str_to_bits s) as [l1|e]; simpl; [|reflexivity].
    destruct (str_to_bits t); reflexivity.
Qed.

Lemma str_to_bits_length (s : string) (l : list Z) :
  str_to_bits s = Ok l -> length l = String.length s.
Proof.
  revert l. induction s as [|c s IH]; simpl; intros l H.
  - injection H as <-. reflexivity.
  - destruct (py_int_of_char c) as [x|e]; simpl in H; [|discriminate H].
    destruct (str_to_bits s) as [xs|e]; simpl in H; [|discriminate H].
    injection H as <-. simpl. now rewrite (IH xs eq_refl).
Qed.

Lemma py_int_of_char_digit (c : ascii) (b : Z) :
  py_int_of_char c = Ok b -> is_digit b.
Proof.
  unfold py_int_of_char, is_digit.
  destruct ((48 <=? Z.of_nat (nat_of_ascii c))
            && (Z.of_nat (nat_of_ascii c) <=? 57)) eqn:E; [|discriminate].
  apply andb_prop in E as [E1 E2].
  apply Z.leb_le in E1, E2. intros H. injection H as <-. lia.
Qed.

Lemma py_str_nonempty (z : Z) : (1 <= String.length (py_str z))%nat.
Proof.
  unfold py_str. destruct z as [|p|p]; simpl.
  - lia.
  - destruct (Pos.to_uint p); simpl; lia.
  - lia.
Qed.

Lemma bits_to_str_length (bits : list Z) :
  (length bits <= String.length (bits_to_str bits))%nat.
Proof.
  induction bits as [|b bits IH]; [simpl; lia|].
  rewrite bits_to_str_cons, string_length_app.
  pose proof (py_str_nonempty b). simpl. lia.
Qed.

Lemma str_to_bits_digit_value (b : Z) :
  is_digit b -> str_to_bits (py_str b) = Ok [b].
Proof.
  unfold is_digit. intros Hb.
  assert (Hc : b = 0 \/ b = 1 \/ b = 2 \/ b = 3 \/ b = 4 \/ b = 5 \/ b = 6 \/
               b = 7 \/ b = 8 \/ b = 9) by lia.
  repeat destruct Hc as [-> | Hc]; try subst b; reflexivity.
Qed.

(** X11. [str_to_bits] reads any string of decimal digits, not only of
    '0' and '1': it returns the values of the digits, one per character and
    in order (the empty list for the empty string). A character that is not
    a decimal digit, wherever it stands, makes it raise a ValueError. *)
Theorem str_to_bits_digits (s : string) :
  match str_to_bits s with
  | Ok bits =>
      all_digits s = true
      /\ bits = map digit_value (list_ascii_of_string s)
      /\ Forall is_digit bits
  | Raise e => all_digits s = false /\ exists msg, e = ValueError msg
  end.
Proof.
  induction s as [|c s IH]; simpl.
  - repeat split. constructor.
  - pose proof (py_int_of_char_digit c) as Hdigit.
    unfold py_int_of_char in *. fold (digit_value c) in *.
    destruct ((48 <=? Z.of_nat (nat_of_ascii c))
              && (Z.of_nat (nat_of_ascii c) <=? 57)); simpl.
    + destruct (str_to_bits s) as [bits|e]; simpl.
      * destruct IH as (Hs & -> & Hbits). repeat split; [assumption|].
        constructor; [apply Hdigit; reflexivity | assumption].
      * exact IH.
    + split; [reflexivity | eexists; reflexivity].
Qed.

(** X12. Serialising a list of integers and parsing the text gives the
    list back exactly when every element is a single decimal digit, 0 to 9:
    a negative element or one of several digits does not survive the round
    trip. *)
Theorem bits_roundtrip_iff_digits (bits : list Z) :
  str_to_bits (bits_to_str bits) = Ok bits <-> Forall is_digit bits.
Proof.
  split.
  - induction bits as [|b bits IH]; intros H; [constructor|].
    rewrite bits_to_str_cons, str_to_bits_app in H.
    destruct (str_to_bits (py_str b)) as [l1|e] eqn:H1; simpl in H;
      [|discriminate H].
    destruct (str_to_bits (bits_to_str bits)) as [l2|e] eqn:H2; simpl in H;
      [|discriminate H].
    injection H as H.
    pose proof (str_to_bits_length _ _ H1) as L1.
    pose proof (str_to_bits_length _ _ H2) as L2.
    pose proof (py_str_nonempty b) as N1.
    pose proof (bits_to_str_length bits) as N2.
    assert (L : (length l1 + length l2 = S (length bits))%nat).
    { rewrite <- length_app, H. reflexivity. }
    destruct l1 as [|x [|y l1]]; simpl in L, L1; [lia | | lia].
    simpl in H. injection H as -> ->.
    constructor; [|apply IH; reflexivity].
    destruct (py_str b) as [|c [|c' r]] eqn:Hstr; simpl in L1; try lia.
    simpl in H1.
    destruct (py_int_of_char c) as [v|e] eqn:Hc; simpl in H1; [|discriminate H1].
    injection H1 as ->. exact (py_int_of_char_digit c b Hc).
  - induction bits as [|b bits IH]; intros H; [reflexivity|].
    apply Forall_cons_iff in H as [Hb Hbits].
    rewrite bits_to_str_cons, str_to_bits_app.
    rewrite (str_to_bits_digit_value b Hb), (IH Hbits). reflexivity.
Qed.

Example multi_digit_not_restored :
  str_to_bits (bits_to_str [10; 1]) = Ok [1; 0; 1].
Proof. reflexivity. Qed.

Example negative_not_parsed :
  exists msg, str_to_bits (bits_to_str [-1]) = Raise (ValueError msg).
Proof. eexists. reflexivity. Qed.

Lemma bits_roundtrip_iff_digits_witness :
  str_to_bits (bits_to_str [1; 0; 9; 4]) = Ok [1; 0; 9; 4].
Proof.
  apply (proj2 (bits_roundtrip_iff_digits [1; 0; 9; 4])).
  repeat constructor; discriminate.
Defined.
